(** * aws-efs-creator: the stack assembler and its entry point

    A shallow embedding of [lib/aws-efs-creator-stack.ts] (the constructor of
    [AwsEfsCreatorStack]) and of [bin/aws-efs-creator.ts] (the entry point),
    with the declarations they make on the CDK construct tree written as
    explicit state passing, and the properties the specification states
    about them. *)

From stdpp Require Import base option strings list gmap.

Local Open Scope string_scope.

(** ** JavaScript values the two files handle *)

(** A value of type [string | undefined]: what [process.env.NAME] or an
    optional property evaluates to. *)
Abbreviation jsstr := (option string).

Definition undefined : jsstr := None.

(** A template-literal hole [${v}]: a string is spliced as it is, and
    [undefined] as the nine letters of its name. *)
Definition interpolate (v : jsstr) : string :=
  match v with
  | Some s => s
  | None => "undefined"
  end.

(** The process environment, after [dotenv.config()] has merged the [.env]
    file into it. *)
Abbreviation ProcessEnv := (gmap string string).

(** ** The provisioning library, as far as the two files use it

    One module per imported name space ([cdk], [ec2], [iam], [efs]). A
    resource that another one refers to is named by its handle, the
    construct id it was declared under in the stack. *)

Abbreviation Handle := string.

Module cdk.

Inductive RemovalPolicy := RETAIN | DESTROY.

(** What an attribute of a declared resource resolves to at deployment. *)
Inductive Token :=
  | securityGroupId (sg : Handle)
  | fileSystemId (fs : Handle).

Record CfnOutput := {
  value : Token;
  exportName : string;
  description : string;
}.

End cdk.

Module ec2.

(** The handle [Vpc.fromLookup] returns. *)
Record IVpc := { vpcId : string }.

Record SecurityGroup := {
  securityGroupName : string;
  vpc : IVpc;
  allowAllOutbound : bool;
  (** set by [applyRemovalPolicy]; absent until then *)
  removalPolicy : option cdk.RemovalPolicy;
  tags : gmap string jsstr;
}.

End ec2.

Module iam.

Inductive Effect := ALLOW | DENY.

Inductive Principal := AnyPrincipal | ArnPrincipal (arn : string).

(** [conditions] is the object literal as written: operator, then
    condition key, then the value compared with. *)
Record PolicyStatement := {
  effect : Effect;
  actions : list string;
  principals : list Principal;
  conditions : list (string * list (string * string));
}.

End iam.

Module efs.

Inductive PerformanceMode := GENERAL_PURPOSE | MAX_IO.

Inductive ThroughputMode := BURSTING | PROVISIONED.

Inductive LifecyclePolicy :=
  | AFTER_7_DAYS | AFTER_14_DAYS | AFTER_30_DAYS | AFTER_60_DAYS | AFTER_90_DAYS.

(** Days without access after which a file moves to infrequent access. *)
Definition inactivityDays (p : LifecyclePolicy) : nat :=
  match p with
  | AFTER_7_DAYS => 7
  | AFTER_14_DAYS => 14
  | AFTER_30_DAYS => 30
  | AFTER_60_DAYS => 60
  | AFTER_90_DAYS => 90
  end.

Record FileSystem := {
  fileSystemName : string;
  vpc : ec2.IVpc;
  removalPolicy : cdk.RemovalPolicy;
  securityGroup : Handle;
  encrypted : bool;
  performanceMode : PerformanceMode;
  allowAnonymousAccess : bool;
  throughputMode : ThroughputMode;
  lifecyclePolicy : LifecyclePolicy;
  (** statements added by [addToResourcePolicy], oldest first *)
  resourcePolicy : list iam.PolicyStatement;
  tags : gmap string jsstr;
}.

End efs.

(** ** Fatal conditions *)

(** What aborts the run. The first two are the repository's own and carry
    the offending input; the last two are raised by the provisioning
    library: a lookup on a stack whose account or region is not specified,
    and a file system in provisioned mode without a provisioned
    throughput. *)
Inductive Fatal :=
  | ConfigurationMissingError (name : string)
  | InvalidModeError (raw : jsstr) (accepted : list string)
  | StackAccountRegionNotSpecified
  | ProvisionedThroughputRequired.

Inductive Result (A : Type) :=
  | Ok (a : A)
  | Throw (e : Fatal).
Arguments Ok {A} a.
Arguments Throw {A} e.

(** ** Mode parsers *)

Module ModeParsing.

(** Modelled from the spec: [utils/efs-mode-parsing] is not among the
    sources. Section 4.2: the raw input is compared, exactly and without
    case normalisation, with the literal names of the enumeration's
    members; a match yields that member, anything else fails with an
    [InvalidModeError] carrying the raw value and the accepted names.
    There is no default: a caller that supplies no valid string gets the
    failure. *)
Fixpoint memberNamed {M : Type} (members : list (string * M)) (raw : string)
  : option M :=
  match members with
  | [] => None
  | (name, m) :: rest =>
      if decide (raw = name) then Some m else memberNamed rest raw
  end.

Definition parseMode {M : Type} (members : list (string * M)) (raw : jsstr)
  : Result M :=
  match raw with
  | Some s =>
      match memberNamed members s with
      | Some m => Ok m
      | None => Throw (InvalidModeError raw (members.*1))
      end
  | None => Throw (InvalidModeError raw (members.*1))
  end.

(** Modelled from the spec: the two members of the performance
    enumeration, under the literal names of sections 3 and 8
    ([generalPurpose], [maxIO]). *)
Definition performanceModes : list (string * efs.PerformanceMode) :=
  [("generalPurpose", efs.GENERAL_PURPOSE); ("maxIO", efs.MAX_IO)].

(** Modelled from the spec: the two members of the throughput
    enumeration. Section 8 names [bursting]; section 3 describes the other
    member as provisioned/elastic, and it is taken here under the literal
    name [provisioned]. *)
Definition throughputModes : list (string * efs.ThroughputMode) :=
  [("bursting", efs.BURSTING); ("provisioned", efs.PROVISIONED)].

Definition parsePerformanceMode : jsstr -> Result efs.PerformanceMode :=
  parseMode performanceModes.

Definition parseThroughputMode : jsstr -> Result efs.ThroughputMode :=
  parseMode throughputModes.

End ModeParsing.
Export ModeParsing.

(** ** The construct tree and the declarations made on it *)

Inductive Construct :=
  | VpcNode (v : ec2.IVpc)
  | SecurityGroupNode (sg : ec2.SecurityGroup)
  | FileSystemNode (fs : efs.FileSystem)
  | CfnOutputNode (o : cdk.CfnOutput).

(** The three labels the entry point hands to [ApplyTags]. *)
Record TagSet := {
  environment : jsstr;
  project : jsstr;
  owner : jsstr;
}.

(** The application under construction: the aspects registered on it and
    the children of the stack, each under its construct id, in the order of
    their declaration. *)
Record App := {
  aspects : list TagSet;
  children : list (Handle * Construct);
}.

Definition emptyApp : App := {| aspects := []; children := [] |}.

(** What [super(scope, id, props)] leaves the constructor of a stack with:
    no child yet, under the aspects registered on the application so far. *)
Definition newStack (asp : list TagSet) : App := {| aspects := asp; children := [] |}.

(** A run either returns or throws, and in both cases leaves the
    application as the statements executed so far have made it. *)
Inductive Outcome (A : Type) :=
  | Returned (a : A) (app : App)
  | Thrown (e : Fatal) (app : App).
Arguments Returned {A} a app.
Arguments Thrown {A} e app.

Definition Decl (A : Type) : Type := App -> Outcome A.

#[global] Instance Decl_ret : MRet Decl := fun A a app => Returned a app.

#[global] Instance Decl_bind : MBind Decl := fun A B k m app =>
  match m app with
  | Returned a app' => k a app'
  | Thrown e app' => Thrown e app'
  end.

Definition throw {A : Type} (e : Fatal) : Decl A := fun app => Thrown e app.

Definition liftResult {A : Type} (r : Result A) : Decl A :=
  match r with
  | Ok a => mret a
  | Throw e => throw e
  end.

Definition finalApp {A : Type} (o : Outcome A) : App :=
  match o with
  | Returned _ app => app
  | Thrown _ app => app
  end.

(** The status the process ends with: an uncaught fatal condition ends it
    with status 1. *)
Definition exitCode {A : Type} (o : Outcome A) : Z :=
  match o with
  | Returned _ _ => 0%Z
  | Thrown _ _ => 1%Z
  end.

(** [new C(this, id, ...)]: the construct becomes the last child of the
    stack, and the caller holds it by its id. The id is kept as it is
    given, which is how the construct library keeps an id without [/]; in
    an id with one it stores [--] in its place. *)
Definition addChild (id : string) (c : Construct) : Decl Handle := fun app =>
  Returned id {| aspects := aspects app; children := children app ++ [(id, c)] |}.

(** A method call that mutates the construct held under [h]. *)
Definition mutate (h : Handle) (f : Construct -> Construct) : Decl unit := fun app =>
  Returned tt {| aspects := aspects app;
                 children := (fun '(id, c) => if decide (id = h) then (id, f c) else (id, c))
                               <$> children app |}.

(** The construct a handle stands for. *)
Fixpoint findChild (cs : list (Handle * Construct)) (h : Handle) : option Construct :=
  match cs with
  | [] => None
  | (id, c) :: rest => if decide (id = h) then Some c else findChild rest h
  end.

Definition child (app : App) (h : Handle) : option Construct :=
  findChild (children app) h.

(** ** The external provisioning engine *)

(** What [Vpc.fromLookup] gives on the stack for a network identifier: the
    network the context records for it, or the library's placeholder when
    the context records none. It gives nothing when the library refuses the
    lookup, which it does when the account or the region of the stack is
    not specified. *)
Record Engine := {
  lookupVpc : jsstr -> option ec2.IVpc;
}.

(** ** Declaration primitives, as the stack calls them *)

Definition Vpc_fromLookup (engine : Engine) (id : string) (vpcId : jsstr)
  : Decl ec2.IVpc :=
  match lookupVpc engine vpcId with
  | Some v => _ ← addChild id (VpcNode v); mret v
  | None => throw StackAccountRegionNotSpecified
  end.

Definition new_SecurityGroup (id : string)
    (securityGroupName : string) (vpc : ec2.IVpc) (allowAllOutbound : bool)
  : Decl Handle :=
  addChild id (SecurityGroupNode {|
    ec2.securityGroupName := securityGroupName;
    ec2.vpc := vpc;
    ec2.allowAllOutbound := allowAllOutbound;
    ec2.removalPolicy := None;
    ec2.tags := ∅;
  |}).

(** [efsSG.applyRemovalPolicy(policy)]; the stack calls it on the security
    group only. *)
Definition applyRemovalPolicy (h : Handle) (policy : cdk.RemovalPolicy) : Decl unit :=
  mutate h (fun c =>
    match c with
    | SecurityGroupNode sg => SecurityGroupNode {|
        ec2.securityGroupName := ec2.securityGroupName sg;
        ec2.vpc := ec2.vpc sg;
        ec2.allowAllOutbound := ec2.allowAllOutbound sg;
        ec2.removalPolicy := Some policy;
        ec2.tags := ec2.tags sg;
      |}
    | other => other
    end).

(** [new iam.PolicyStatement({actions, principals, conditions})]: with no
    [effect] given, the statement allows. *)
Definition new_PolicyStatement (actions : list string)
    (principals : list iam.Principal)
    (conditions : list (string * list (string * string)))
  : iam.PolicyStatement :=
  {| iam.effect := iam.ALLOW;
     iam.actions := actions;
     iam.principals := principals;
     iam.conditions := conditions |}.

(** The statement the library's [FileSystem] puts in the resource policy
    when anonymous access is not allowed: write and root access for any
    principal, for requests made through a mount target. *)
Definition mountTargetAccessStatement : iam.PolicyStatement :=
  new_PolicyStatement
    ["elasticfilesystem:ClientWrite"; "elasticfilesystem:ClientRootAccess"]
    [iam.AnyPrincipal]
    [("Bool", [("elasticfilesystem:AccessedViaMountTarget", "true")])].

(** [new efs.FileSystem(this, id, {...})] with the properties the stack
    passes. The stack passes no [provisionedThroughputPerSecond], without
    which the library refuses the provisioned mode: the constructor throws
    and no file system resource is declared. With anonymous access not
    allowed the library starts the resource policy with
    [mountTargetAccessStatement]. *)
Definition new_FileSystem (id : string)
    (fileSystemName : string) (vpc : ec2.IVpc) (removalPolicy : cdk.RemovalPolicy)
    (securityGroup : Handle) (encrypted : bool)
    (performanceMode : efs.PerformanceMode) (allowAnonymousAccess : bool)
    (throughputMode : efs.ThroughputMode) (lifecyclePolicy : efs.LifecyclePolicy)
  : Decl Handle :=
  match throughputMode with
  | efs.PROVISIONED => throw ProvisionedThroughputRequired
  | efs.BURSTING =>
      addChild id (FileSystemNode {|
        efs.fileSystemName := fileSystemName;
        efs.vpc := vpc;
        efs.removalPolicy := removalPolicy;
        efs.securityGroup := securityGroup;
        efs.encrypted := encrypted;
        efs.performanceMode := performanceMode;
        efs.allowAnonymousAccess := allowAnonymousAccess;
        efs.throughputMode := throughputMode;
        efs.lifecyclePolicy := lifecyclePolicy;
        efs.resourcePolicy :=
          if allowAnonymousAccess then [] else [mountTargetAccessStatement];
        efs.tags := ∅;
      |})
  end.

Definition addToResourcePolicy (h : Handle) (statement : iam.PolicyStatement)
  : Decl unit :=
  mutate h (fun c =>
    match c with
    | FileSystemNode fs => FileSystemNode {|
        efs.fileSystemName := efs.fileSystemName fs;
        efs.vpc := efs.vpc fs;
        efs.removalPolicy := efs.removalPolicy fs;
        efs.securityGroup := efs.securityGroup fs;
        efs.encrypted := efs.encrypted fs;
        efs.performanceMode := efs.performanceMode fs;
        efs.allowAnonymousAccess := efs.allowAnonymousAccess fs;
        efs.throughputMode := efs.throughputMode fs;
        efs.lifecyclePolicy := efs.lifecyclePolicy fs;
        efs.resourcePolicy := efs.resourcePolicy fs ++ [statement];
        efs.tags := efs.tags fs;
      |}
    | other => other
    end).

Definition new_CfnOutput (id : string)
    (value : cdk.Token) (exportName : string) (description : string)
  : Decl Handle :=
  addChild id (CfnOutputNode {|
    cdk.value := value;
    cdk.exportName := exportName;
    cdk.description := description;
  |}).

(** ** The stack: [lib/aws-efs-creator-stack.ts] *)

(** Modelled from the spec: [lib/AwsEfsCreatorStackProps] is not among the
    sources. The fields are the ones the entry point writes and the stack
    reads, which are those of the StackConfiguration of section 3; a field
    the entry point fills from [process.env], or leaves out, can be
    [undefined] when the stack reads it. *)
Record AwsEfsCreatorStackProps := {
  resourcePrefix : string;
  region : jsstr;
  account : jsstr;
  deployRegion : jsstr;
  deployEnvironment : jsstr;
  appName : jsstr;
  vpcId : jsstr;
  performanceMode : jsstr;
  throughputMode : jsstr;
  stackName : jsstr;
  description : jsstr;
}.

(** Line 27: [props.deployEnvironment === 'production' ? RETAIN : DESTROY]. *)
Definition removalPolicy (props : AwsEfsCreatorStackProps) : cdk.RemovalPolicy :=
  if decide (deployEnvironment props = Some "production")
  then cdk.RETAIN else cdk.DESTROY.

(** The constructor's body after [super(scope, id, props)], statement by
    statement; [id] and the remaining properties go to the base class,
    whose own checks on them (the form of the stack name among them) are
    not part of this model: the body starts from the stack the base class
    has accepted. *)
Definition AwsEfsCreatorStack (engine : Engine) (id : string)
    (props : AwsEfsCreatorStackProps) : Decl unit :=
  vpc ← Vpc_fromLookup engine (resourcePrefix props +:+ "-VPC") (vpcId props);
  let removalPolicy := removalPolicy props in
  efsSG ← new_SecurityGroup (resourcePrefix props +:+ "-efsSG")
            (resourcePrefix props +:+ "-efsSG") vpc true;
  _ ← applyRemovalPolicy efsSG removalPolicy;
  performanceMode ← liftResult (parsePerformanceMode (performanceMode props));
  throughputMode ← liftResult (parseThroughputMode (throughputMode props));
  efsFileSystem ← new_FileSystem (resourcePrefix props +:+ "-efsFileSystem")
            (resourcePrefix props +:+ "-efsFileSystem") vpc removalPolicy efsSG
            true performanceMode false throughputMode efs.AFTER_90_DAYS;
  _ ← addToResourcePolicy efsFileSystem
        (new_PolicyStatement
           ["elasticfilesystem:ClientMount"]
           [iam.AnyPrincipal]
           [("Bool", [("elasticfilesystem:AccessedViaMountTarget", "true")])]);
  _ ← new_CfnOutput "efsSG"
        (cdk.securityGroupId efsSG)
        (resourcePrefix props +:+ "-efsSG")
        "The security group id for the EFS file system.";
  _ ← new_CfnOutput "efsFileSystemId"
        (cdk.fileSystemId efsFileSystem)
        (resourcePrefix props +:+ "-efsFileSystemId")
        "The file system id for the EFS file system.";
  mret tt.

(** ** The tag aspect *)

Module ApplyTag.

(** Modelled from the spec: [utils/apply-tag] is not among the sources.
    Section 4.3: the aspect visits a node and, when the node supports
    tagging, applies every entry of the tag set to it as a key/value label;
    a node that does not support tagging is left as it is, without error. *)
Definition entries (t : TagSet) : list (string * jsstr) :=
  [("environment", environment t); ("project", project t); ("owner", owner t)].

(** Modelled from the spec: of the nodes of the ResourceTree, the
    access-boundary and the storage resource carry labels; the looked-up
    network and the published outputs do not. *)
Definition isTaggable (node : Construct) : bool :=
  match node with
  | SecurityGroupNode _ | FileSystemNode _ => true
  | VpcNode _ | CfnOutputNode _ => false
  end.

Definition labels (node : Construct) : gmap string jsstr :=
  match node with
  | SecurityGroupNode sg => ec2.tags sg
  | FileSystemNode fs => efs.tags fs
  | VpcNode _ | CfnOutputNode _ => ∅
  end.

Definition setTag (key : string) (value : jsstr) (node : Construct) : Construct :=
  match node with
  | SecurityGroupNode sg => SecurityGroupNode {|
      ec2.securityGroupName := ec2.securityGroupName sg;
      ec2.vpc := ec2.vpc sg;
      ec2.allowAllOutbound := ec2.allowAllOutbound sg;
      ec2.removalPolicy := ec2.removalPolicy sg;
      ec2.tags := <[key := value]> (ec2.tags sg);
    |}
  | FileSystemNode fs => FileSystemNode {|
      efs.fileSystemName := efs.fileSystemName fs;
      efs.vpc := efs.vpc fs;
      efs.removalPolicy := efs.removalPolicy fs;
      efs.securityGroup := efs.securityGroup fs;
      efs.encrypted := efs.encrypted fs;
      efs.performanceMode := efs.performanceMode fs;
      efs.allowAnonymousAccess := efs.allowAnonymousAccess fs;
      efs.throughputMode := efs.throughputMode fs;
      efs.lifecyclePolicy := efs.lifecyclePolicy fs;
      efs.resourcePolicy := efs.resourcePolicy fs;
      efs.tags := <[key := value]> (efs.tags fs);
    |}
  | other => other
  end.

Definition visit (t : TagSet) (node : Construct) : Construct :=
  if isTaggable node
  then foldl (fun n '(key, value) => setTag key value n) node (entries t)
  else node.

End ApplyTag.
Export ApplyTag.

(** [Aspects.of(app).add(aspect)]. *)
Definition Aspects_add (t : TagSet) : Decl unit := fun app =>
  Returned tt {| aspects := aspects app ++ [t]; children := children app |}.

(** [app.synth()]: every registered aspect visits every node. *)
Definition synth : Decl unit := fun app =>
  Returned tt {| aspects := aspects app;
                 children := (fun '(id, c) => (id, foldl (fun n t => visit t n) c (aspects app)))
                               <$> children app |}.

(** ** The environment validator *)

Module CheckEnvironmentVariable.

(** Modelled from the spec: [utils/check-environment-variable] is not among
    the sources. Section 4.1: each name, in the order given, must be
    present and non-empty in the process environment; the first one that
    is not halts the program with a non-zero status, and no names is a
    success. *)
Fixpoint firstMissing (env : ProcessEnv) (names : list string) : option string :=
  match names with
  | [] => None
  | name :: rest =>
      match env !! name with
      | Some v => if decide (v = "") then Some name else firstMissing env rest
      | None => Some name
      end
  end.

Definition checkEnvVariables (env : ProcessEnv) (names : list string) : Decl unit :=
  match firstMissing env names with
  | Some name => throw (ConfigurationMissingError name)
  | None => mret tt
  end.

End CheckEnvironmentVariable.
Export CheckEnvironmentVariable.

(** ** The entry point: [bin/aws-efs-creator.ts] *)

(** Lines 27 to 31: the labels handed to [ApplyTags]. *)
Definition tagSet (env : ProcessEnv) : TagSet :=
  let deployEnvironment := env !! "ENVIRONMENT" in
  let appName := env !! "APP_NAME" in
  let owner := env !! "OWNER" in
  {| environment := deployEnvironment; project := appName; owner := owner |}.

(** Lines 33 to 48: [stackProps], spread into the object the stack is
    constructed with, which adds [stackName] and [description]. Neither
    mode selector is written. *)
Definition stackProps (env : ProcessEnv) : AwsEfsCreatorStackProps :=
  let account := env !! "CDK_DEFAULT_ACCOUNT" in
  let cdkRegion := env !! "CDK_DEPLOY_REGION" in
  let deployEnvironment := env !! "ENVIRONMENT" in
  let appName := env !! "APP_NAME" in
  {| resourcePrefix := interpolate appName +:+ "-" +:+ interpolate deployEnvironment;
     region := cdkRegion;
     account := account;
     deployRegion := cdkRegion;
     deployEnvironment := deployEnvironment;
     appName := appName;
     vpcId := env !! "VPC_ID";
     performanceMode := undefined;
     throughputMode := undefined;
     stackName := Some (interpolate appName +:+ "-" +:+ interpolate deployEnvironment
                          +:+ "-" +:+ interpolate cdkRegion +:+ "-AwsEfsCreatorStack");
     description := Some ("AwsEfsCreatorStack for " +:+ interpolate appName +:+ " in "
                            +:+ interpolate cdkRegion +:+ " " +:+ interpolate deployEnvironment
                            +:+ ".") |}.

(** The statements of the entry point, in their order. The stack is
    constructed by the body of its constructor: the checks the base class
    makes first on the stack name and the description are not part of this
    model. *)
Definition main (engine : Engine) (env : ProcessEnv) : Decl unit :=
  _ ← checkEnvVariables env ["APP_NAME"; "OWNER"; "VPC_ID"];
  _ ← Aspects_add (tagSet env);
  _ ← AwsEfsCreatorStack engine "AwsEfsCreatorStack" (stackProps env);
  synth.

(** The whole run, from a fresh application. *)
Definition run (engine : Engine) (env : ProcessEnv) : Outcome unit :=
  main engine env emptyApp.

(** ** Reading the construct tree *)

Definition ids (app : App) : list Handle := (children app).*1.

Definition securityGroups (app : App) : list ec2.SecurityGroup :=
  omap (fun '(_, c) => match c with SecurityGroupNode sg => Some sg | _ => None end)
       (children app).

Definition fileSystems (app : App) : list efs.FileSystem :=
  omap (fun '(_, c) => match c with FileSystemNode fs => Some fs | _ => None end)
       (children app).

Definition outputs (app : App) : list cdk.CfnOutput :=
  omap (fun '(_, c) => match c with CfnOutputNode o => Some o | _ => None end)
       (children app).

(** The removal behaviour a construct carries, if it carries one. *)
Definition removalOf (c : Construct) : option cdk.RemovalPolicy :=
  match c with
  | SecurityGroupNode sg => ec2.removalPolicy sg
  | FileSystemNode fs => Some (efs.removalPolicy fs)
  | VpcNode _ | CfnOutputNode _ => None
  end.

(** Every child of the stack is declared under an id that begins with the
    resource prefix. *)
Definition everyIdPrefixed (props : AwsEfsCreatorStackProps) (app : App) : Prop :=
  ∀ h c, (h, c) ∈ children app → String.prefix (resourcePrefix props) h = true.

(** ** Reading a policy statement against a request

    No authorisation happens while the stack is declared; this is the
    reading of a declared statement that section 8 of the specification
    appeals to. A statement authorises a request when it allows, lists the
    requested action, names the caller among its principals, and every one
    of its conditions holds in the request's context. The operator [Bool]
    holds when the context carries the key with exactly the value written
    in the statement; an operator that is not read here never holds. *)






(** ** What the constructor builds, statement by statement *)

Definition mountStatement : iam.PolicyStatement :=
  {| iam.effect := iam.ALLOW;
     iam.actions := ["elasticfilesystem:ClientMount"];
     iam.principals := [iam.AnyPrincipal];
     iam.conditions := [("Bool", [("elasticfilesystem:AccessedViaMountTarget", "true")])] |}.

Definition builtSecurityGroup (props : AwsEfsCreatorStackProps) (v : ec2.IVpc)
  : ec2.SecurityGroup :=
  {| ec2.securityGroupName := resourcePrefix props +:+ "-efsSG";
     ec2.vpc := v;
     ec2.allowAllOutbound := true;
     ec2.removalPolicy := Some (removalPolicy props);
     ec2.tags := ∅ |}.

Definition builtFileSystem (props : AwsEfsCreatorStackProps) (v : ec2.IVpc)
    (pm : efs.PerformanceMode) (tm : efs.ThroughputMode) : efs.FileSystem :=
  {| efs.fileSystemName := resourcePrefix props +:+ "-efsFileSystem";
     efs.vpc := v;
     efs.removalPolicy := removalPolicy props;
     efs.securityGroup := resourcePrefix props +:+ "-efsSG";
     efs.encrypted := true;
     efs.performanceMode := pm;
     efs.allowAnonymousAccess := false;
     efs.throughputMode := tm;
     efs.lifecyclePolicy := efs.AFTER_90_DAYS;
     efs.resourcePolicy := [mountTargetAccessStatement; mountStatement];
     efs.tags := ∅ |}.

Definition builtOutputs (props : AwsEfsCreatorStackProps) : list cdk.CfnOutput :=
  [ {| cdk.value := cdk.securityGroupId (resourcePrefix props +:+ "-efsSG");
       cdk.exportName := resourcePrefix props +:+ "-efsSG";
       cdk.description := "The security group id for the EFS file system." |};
    {| cdk.value := cdk.fileSystemId (resourcePrefix props +:+ "-efsFileSystem");
       cdk.exportName := resourcePrefix props +:+ "-efsFileSystemId";
       cdk.description := "The file system id for the EFS file system." |} ].

(** The children once the security group has its removal policy: what is
    there when a mode parser throws. *)
Definition builtEarly (props : AwsEfsCreatorStackProps) (v : ec2.IVpc)
  : list (Handle * Construct) :=
  [ (resourcePrefix props +:+ "-VPC", VpcNode v);
    (resourcePrefix props +:+ "-efsSG", SecurityGroupNode (builtSecurityGroup props v)) ].

Definition builtChildren (props : AwsEfsCreatorStackProps) (v : ec2.IVpc)
    (pm : efs.PerformanceMode) (tm : efs.ThroughputMode) : list (Handle * Construct) :=
  builtEarly props v ++
  (resourcePrefix props +:+ "-efsFileSystem", FileSystemNode (builtFileSystem props v pm tm))
  :: zip ["efsSG"; "efsFileSystemId"] (CfnOutputNode <$> builtOutputs props).

(** The outcome of the constructor on a new stack, by the first statement
    that throws. *)
Definition constructed (engine : Engine) (props : AwsEfsCreatorStackProps)
    (asp : list TagSet) : Outcome unit :=
  match lookupVpc engine (vpcId props) with
  | None => Thrown StackAccountRegionNotSpecified (newStack asp)
  | Some v =>
      match parsePerformanceMode (performanceMode props) with
      | Throw e => Thrown e {| aspects := asp; children := builtEarly props v |}
      | Ok pm =>
          match parseThroughputMode (throughputMode props) with
          | Throw e => Thrown e {| aspects := asp; children := builtEarly props v |}
          | Ok efs.PROVISIONED =>
              Thrown ProvisionedThroughputRequired
                     {| aspects := asp; children := builtEarly props v |}
          | Ok efs.BURSTING =>
              Returned tt {| aspects := asp;
                             children := builtChildren props v pm efs.BURSTING |}
          end
      end
  end.

(** ** Sample inputs *)

(** An engine on a stack with account and region specified, whose context
    records a network under every identifier; without an identifier it
    gives the placeholder. *)
Definition resolving : Engine :=
  {| lookupVpc := fun id => Some {| ec2.vpcId := default "vpc-12345" id |} |}.

(** The configuration of the end-to-end example of section 8. *)
Definition acme : AwsEfsCreatorStackProps :=
  {| resourcePrefix := "acme-production";
     region := Some "eu-west-1";
     account := Some "123456789012";
     deployRegion := Some "eu-west-1";
     deployEnvironment := Some "production";
     appName := Some "acme";
     vpcId := Some "vpc-123";
     performanceMode := Some "generalPurpose";
     throughputMode := Some "bursting";
     stackName := Some "acme-production-eu-west-1-AwsEfsCreatorStack";
     description := Some "AwsEfsCreatorStack for acme in eu-west-1 production." |}.

(** The same configuration with the throughput selector of the provisioned
    mode. *)
Definition acmeProvisioned : AwsEfsCreatorStackProps :=
  {| resourcePrefix := "acme-production";
     region := Some "eu-west-1";
     account := Some "123456789012";
     deployRegion := Some "eu-west-1";
     deployEnvironment := Some "production";
     appName := Some "acme";
     vpcId := Some "vpc-123";
     performanceMode := Some "generalPurpose";
     throughputMode := Some "provisioned";
     stackName := Some "acme-production-eu-west-1-AwsEfsCreatorStack";
     description := Some "AwsEfsCreatorStack for acme in eu-west-1 production." |}.

Definition acmeApp : App :=
  finalApp (AwsEfsCreatorStack resolving "AwsEfsCreatorStack" acme (newStack [])).

(** A process environment with every input set. *)
Definition acmeEnv : ProcessEnv :=
  list_to_map [("APP_NAME", "acme"); ("OWNER", "ops"); ("VPC_ID", "vpc-123");
               ("CDK_DEPLOY_REGION", "eu-west-1"); ("ENVIRONMENT", "production");
               ("CDK_DEFAULT_ACCOUNT", "123456789012")].

(** The same with [ENVIRONMENT] left unset. *)
Definition noEnvironment : ProcessEnv := delete "ENVIRONMENT" acmeEnv.

(** The same with [OWNER] left unset. *)
Definition noOwner : ProcessEnv := delete "OWNER" acmeEnv.

Definition sampleTags : TagSet :=
  {| environment := Some "production"; project := Some "X"; owner := Some "Y" |}.

(** ** Handles and names *)

Definition isSecurityGroup (c : option Construct) : bool :=
  match c with
  | Some (SecurityGroupNode _) => true
  | _ => false
  end.

Definition isFileSystem (c : option Construct) : bool :=
  match c with
  | Some (FileSystemNode _) => true
  | _ => false
  end.

(** Every handle a construct holds names a child of the stack of the kind
    the holder expects: the network guard of a file system a security
    group, the value of an output the resource whose identifier it
    publishes. *)
Definition resolved (app : App) (c : Construct) : bool :=
  match c with
  | FileSystemNode fs => isSecurityGroup (child app (efs.securityGroup fs))
  | CfnOutputNode o =>
      match cdk.value o with
      | cdk.securityGroupId h => isSecurityGroup (child app h)
      | cdk.fileSystemId h => isFileSystem (child app h)
      end
  | VpcNode _ | SecurityGroupNode _ => true
  end.

Definition referencesResolve (app : App) : bool :=
  forallb (fun '(_, c) => resolved app c) (children app).

(** A string without [/], the separator the construct library does not
    keep in an id. *)
Fixpoint slashFree (s : string) : bool :=
  match s with
  | EmptyString => true
  | String c rest => negb (Ascii.eqb c (Ascii.ascii_of_nat 47)) && slashFree rest
  end.

(** A name without the hyphen the resource prefix is joined with. *)
Fixpoint hyphenFree (s : string) : bool :=
  match s with
  | EmptyString => true
  | String c rest => negb (Ascii.eqb c (Ascii.ascii_of_nat 45)) && hyphenFree rest
  end.


(** * Properties *)

(** ** Construct ids *)

Lemma prefixed_ne (p a b : string) : a ≠ b → p +:+ a ≠ p +:+ b.
Proof. intros Hab Heq. apply Hab. by apply (inj (String.app p)). Qed.

(** A prefixed id differs from a fixed one when no prefix fits: the prefix
    is consumed letter by letter against the fixed id. *)
Ltac fixed_id_ne :=
  let H := fresh "H" in
  intros H;
  repeat match type of H with
         | ?p +:+ _ = _ =>
             destruct p; simpl in H;
             [discriminate H | first [discriminate H | injection H as _ H]]
         end.

Lemma VPC_ne_efsSG p : p +:+ "-VPC" ≠ "efsSG".
Proof. fixed_id_ne. Qed.

Lemma VPC_ne_efsFileSystemId p : p +:+ "-VPC" ≠ "efsFileSystemId".
Proof. fixed_id_ne. Qed.

Lemma efsSG_ne_efsSG p : p +:+ "-efsSG" ≠ "efsSG".
Proof. fixed_id_ne. Qed.

Lemma efsSG_ne_efsFileSystemId p : p +:+ "-efsSG" ≠ "efsFileSystemId".
Proof. fixed_id_ne. Qed.

Lemma efsFileSystem_ne_efsSG p : p +:+ "-efsFileSystem" ≠ "efsSG".
Proof. fixed_id_ne. Qed.

Lemma efsFileSystem_ne_efsFileSystemId p : p +:+ "-efsFileSystem" ≠ "efsFileSystemId".
Proof. fixed_id_ne. Qed.

Lemma VPC_ne_prefixed_efsSG p : p +:+ "-VPC" ≠ p +:+ "-efsSG".
Proof. by apply prefixed_ne. Qed.

Lemma VPC_ne_efsFileSystem p : p +:+ "-VPC" ≠ p +:+ "-efsFileSystem".
Proof. by apply prefixed_ne. Qed.

Lemma efsSG_ne_efsFileSystem p : p +:+ "-efsSG" ≠ p +:+ "-efsFileSystem".
Proof. by apply prefixed_ne. Qed.

Lemma prefix_app (p s : string) : String.prefix p (p +:+ s) = true.
Proof.
  induction p as [|a p IH]; [by destruct s|].
  simpl. by destruct (Ascii.ascii_dec a a).
Qed.

(** ** The constructor, run symbolically *)

Lemma AwsEfsCreatorStack_new engine id props asp :
  AwsEfsCreatorStack engine id props (newStack asp) = constructed engine props asp.
Proof.
  unfold AwsEfsCreatorStack, constructed, Vpc_fromLookup, newStack.
  destruct (lookupVpc engine (vpcId props)) as [v|]; [|done].
  unfold mbind, Decl_bind, mret, Decl_ret; simpl.
  rewrite (decide_False _ _ (VPC_ne_prefixed_efsSG _)), (decide_True _ _ eq_refl).
  destruct (parsePerformanceMode (performanceMode props)) as [pm|e]; [|done].
  destruct (parseThroughputMode (throughputMode props)) as [[|]|e]; [|done..].
  simpl.
  rewrite (decide_False _ _ (VPC_ne_efsFileSystem _)),
    (decide_False _ _ (efsSG_ne_efsFileSystem _)), (decide_True _ _ eq_refl).
  done.
Qed.

(** In this model the constructor returns exactly when the network
    resolves, both selectors parse and the throughput mode is not the
    provisioned one, and then the children are the five it declares. *)
Lemma AwsEfsCreatorStack_returned engine id props asp app :
  AwsEfsCreatorStack engine id props (newStack asp) = Returned tt app ↔
  ∃ v pm tm,
    lookupVpc engine (vpcId props) = Some v
    ∧ parsePerformanceMode (performanceMode props) = Ok pm
    ∧ parseThroughputMode (throughputMode props) = Ok tm
    ∧ tm = efs.BURSTING
    ∧ app = {| aspects := asp; children := builtChildren props v pm tm |}.
Proof.
  rewrite AwsEfsCreatorStack_new. unfold constructed. split.
  - destruct (lookupVpc _ _) as [v|]; [|done].
    destruct (parsePerformanceMode _) as [pm|]; [|done].
    destruct (parseThroughputMode _) as [[|]|]; [|done..].
    intros [= <-]. by exists v, pm, efs.BURSTING.
  - intros (v & pm & tm & -> & -> & -> & -> & ->). done.
Qed.

Lemma builtChildren_efsSG props v pm tm :
  findChild (builtChildren props v pm tm) (resourcePrefix props +:+ "-efsSG")
  = Some (SecurityGroupNode (builtSecurityGroup props v)).
Proof.
  simpl. by rewrite (decide_False _ _ (VPC_ne_prefixed_efsSG _)), (decide_True _ _ eq_refl).
Qed.

Lemma builtEarly_efsSG props v :
  findChild (builtEarly props v) (resourcePrefix props +:+ "-efsSG")
  = Some (SecurityGroupNode (builtSecurityGroup props v)).
Proof.
  simpl. by rewrite (decide_False _ _ (VPC_ne_prefixed_efsSG _)), (decide_True _ _ eq_refl).
Qed.

Lemma builtChildren_efsFileSystem props v pm tm :
  findChild (builtChildren props v pm tm) (resourcePrefix props +:+ "-efsFileSystem")
  = Some (FileSystemNode (builtFileSystem props v pm tm)).
Proof.
  simpl.
  by rewrite (decide_False _ _ (VPC_ne_efsFileSystem _)),
    (decide_False _ _ (efsSG_ne_efsFileSystem _)), (decide_True _ _ eq_refl).
Qed.

(** Membership in a list written out: one case per element. *)
Ltac each_child H :=
  repeat (apply elem_of_cons in H as [H|H]; [injection H as -> ->|]);
  try (by apply elem_of_nil in H).

(** ** Removal policy *)

Lemma removalPolicy_production props :
  deployEnvironment props = Some "production" → removalPolicy props = cdk.RETAIN.
Proof. intros H. unfold removalPolicy. by rewrite decide_True. Qed.

Lemma removalPolicy_other props :
  deployEnvironment props ≠ Some "production" → removalPolicy props = cdk.DESTROY.
Proof. intros H. unfold removalPolicy. by rewrite decide_False. Qed.

(** C2. The removal policy is decided by the deployment environment alone:
    [production] gives retain and every other value, absent included, gives
    destroy; two configurations with the same environment get the same
    policy; and whatever the constructor has declared when it stops, each
    construct carries either no removal behaviour or this one. *)
Theorem removal_policy_from_environment engine id props asp :
  (deployEnvironment props = Some "production" → removalPolicy props = cdk.RETAIN)
  ∧ (deployEnvironment props ≠ Some "production" → removalPolicy props = cdk.DESTROY)
  ∧ (∀ props', deployEnvironment props' = deployEnvironment props →
       removalPolicy props' = removalPolicy props)
  ∧ (∀ h c,
       (h, c) ∈ children (finalApp (AwsEfsCreatorStack engine id props (newStack asp))) →
       removalOf c = match c with
                     | SecurityGroupNode _ | FileSystemNode _ => Some (removalPolicy props)
                     | VpcNode _ | CfnOutputNode _ => None
                     end).
Proof.
  split_and!.
  - apply removalPolicy_production.
  - apply removalPolicy_other.
  - intros props' H. unfold removalPolicy. by rewrite H.
  - intros h c. rewrite AwsEfsCreatorStack_new. unfold constructed.
    destruct (lookupVpc _ _) as [v|]; [|by intros ?%elem_of_nil].
    destruct (parsePerformanceMode _) as [pm|];
      [destruct (parseThroughputMode _) as [[|]|]|];
      simpl; intros H; each_child H; done.
Qed.

Lemma removal_policy_from_environment_witness :
  removalPolicy acme = cdk.RETAIN.
Proof.
  apply (removal_policy_from_environment resolving "AwsEfsCreatorStack" acme []).
  reflexivity.
Defined.

(** ** The storage resource *)

(** C3. When the constructor returns, the stack holds exactly one storage
    resource, declared under [<prefix>-efsFileSystem]: it is encrypted at
    rest and refuses anonymous access whatever the configuration, its
    network guard is the handle of the security group the stack declared,
    its two modes are what the two parsers return on the raw selectors, its
    removal policy is the computed one, and its lifecycle policy moves
    files to infrequent access after 90 days without access. *)
Theorem storage_resource_as_declared engine id props asp app :
  AwsEfsCreatorStack engine id props (newStack asp) = Returned tt app →
  ∃ fs sg,
    fileSystems app = [fs]
    ∧ child app (resourcePrefix props +:+ "-efsFileSystem") = Some (FileSystemNode fs)
    ∧ efs.encrypted fs = true
    ∧ efs.allowAnonymousAccess fs = false
    ∧ securityGroups app = [sg]
    ∧ child app (efs.securityGroup fs) = Some (SecurityGroupNode sg)
    ∧ parsePerformanceMode (performanceMode props) = Ok (efs.performanceMode fs)
    ∧ parseThroughputMode (throughputMode props) = Ok (efs.throughputMode fs)
    ∧ efs.removalPolicy fs = removalPolicy props
    ∧ efs.lifecyclePolicy fs = efs.AFTER_90_DAYS
    ∧ efs.inactivityDays (efs.lifecyclePolicy fs) = 90.
Proof.
  intros (v & pm & tm & Hv & Hpm & Htm & _ & ->)%AwsEfsCreatorStack_returned.
  exists (builtFileSystem props v pm tm), (builtSecurityGroup props v).
  unfold child; cbn [children].
  rewrite builtChildren_efsFileSystem. cbn [builtFileSystem efs.securityGroup].
  rewrite builtChildren_efsSG.
  split_and!; done.
Qed.

Lemma storage_resource_as_declared_witness :
  ∃ fs sg,
    fileSystems acmeApp = [fs]
    ∧ child acmeApp "acme-production-efsFileSystem" = Some (FileSystemNode fs)
    ∧ efs.encrypted fs = true
    ∧ efs.allowAnonymousAccess fs = false
    ∧ securityGroups acmeApp = [sg]
    ∧ child acmeApp (efs.securityGroup fs) = Some (SecurityGroupNode sg)
    ∧ parsePerformanceMode (Some "generalPurpose") = Ok (efs.performanceMode fs)
    ∧ parseThroughputMode (Some "bursting") = Ok (efs.throughputMode fs)
    ∧ efs.removalPolicy fs = cdk.RETAIN
    ∧ efs.lifecyclePolicy fs = efs.AFTER_90_DAYS
    ∧ efs.inactivityDays (efs.lifecyclePolicy fs) = 90.
Proof.
  apply (storage_resource_as_declared resolving "AwsEfsCreatorStack" acme [] acmeApp).
  vm_compute. reflexivity.
Defined.

(** ** The access policy *)





(** ** Published outputs *)

(** C5. When the constructor returns, the stack holds exactly two outputs,
    in this order: the identifier of the declared security group, exported
    as [<prefix>-efsSG], and the identifier of the declared file system,
    exported as [<prefix>-efsFileSystemId], each with its description. With
    the prefix [acme-production] the export names are
    [acme-production-efsSG] and [acme-production-efsFileSystemId]. *)
Theorem two_outputs_published engine id props asp app :
  AwsEfsCreatorStack engine id props (newStack asp) = Returned tt app →
  outputs app =
    [ {| cdk.value := cdk.securityGroupId (resourcePrefix props +:+ "-efsSG");
         cdk.exportName := resourcePrefix props +:+ "-efsSG";
         cdk.description := "The security group id for the EFS file system." |};
      {| cdk.value := cdk.fileSystemId (resourcePrefix props +:+ "-efsFileSystem");
         cdk.exportName := resourcePrefix props +:+ "-efsFileSystemId";
         cdk.description := "The file system id for the EFS file system." |} ]
  ∧ (∃ sg, child app (resourcePrefix props +:+ "-efsSG") = Some (SecurityGroupNode sg))
  ∧ (∃ fs, child app (resourcePrefix props +:+ "-efsFileSystem") = Some (FileSystemNode fs))
  ∧ (resourcePrefix props = "acme-production" →
       cdk.exportName <$> outputs app
       = ["acme-production-efsSG"; "acme-production-efsFileSystemId"]).
Proof.
  intros (v & pm & tm & _ & _ & _ & _ & ->)%AwsEfsCreatorStack_returned.
  unfold child; cbn [children].
  rewrite builtChildren_efsFileSystem, builtChildren_efsSG.
  split_and!; [done|by eexists|by eexists|].
  intros Hp. unfold outputs; simpl. by rewrite Hp.
Qed.

Lemma two_outputs_published_witness :
  cdk.exportName <$> outputs acmeApp
  = ["acme-production-efsSG"; "acme-production-efsFileSystemId"].
Proof.
  apply (two_outputs_published resolving "AwsEfsCreatorStack" acme [] acmeApp).
  - vm_compute. reflexivity.
  - reflexivity.
Defined.

(** ** Identifiers and the resource prefix *)

(** The five children come under five different ids, so a handle names one
    construct. *)
Lemma builtChildren_NoDup props v pm tm : NoDup (builtChildren props v pm tm).*1.
Proof.
  pose proof (VPC_ne_prefixed_efsSG (resourcePrefix props)).
  pose proof (VPC_ne_efsFileSystem (resourcePrefix props)).
  pose proof (efsSG_ne_efsFileSystem (resourcePrefix props)).
  pose proof (VPC_ne_efsSG (resourcePrefix props)).
  pose proof (VPC_ne_efsFileSystemId (resourcePrefix props)).
  pose proof (efsSG_ne_efsSG (resourcePrefix props)).
  pose proof (efsSG_ne_efsFileSystemId (resourcePrefix props)).
  pose proof (efsFileSystem_ne_efsSG (resourcePrefix props)).
  pose proof (efsFileSystem_ne_efsFileSystemId (resourcePrefix props)).
  simpl.
  repeat (apply NoDup_cons; split;
          [rewrite ?elem_of_cons, elem_of_nil; intuition congruence|]).
  apply NoDup_nil_2.
Qed.

(** C8, refuted as stated ([everyIdPrefixed]): for the prefix [acme-production] the constructor
    returns, and the output declared under [efsSG] is a child whose id does
    not begin with the prefix. *)
Lemma outputs_not_prefixed :
  AwsEfsCreatorStack resolving "AwsEfsCreatorStack" acme (newStack []) = Returned tt acmeApp
  ∧ ¬ everyIdPrefixed acme acmeApp.
Proof.
  split; [vm_compute; reflexivity|].
  intros Hall.
  specialize (Hall "efsSG"
    (CfnOutputNode {| cdk.value := cdk.securityGroupId "acme-production-efsSG";
                      cdk.exportName := "acme-production-efsSG";
                      cdk.description := "The security group id for the EFS file system." |})).
  assert (String.prefix (resourcePrefix acme) "efsSG" = false) as Hno by reflexivity.
  rewrite Hall in Hno; [discriminate|].
  replace (children acmeApp)
    with (builtChildren acme {| ec2.vpcId := "vpc-123" |} efs.GENERAL_PURPOSE efs.BURSTING)
    by (vm_compute; reflexivity).
  unfold builtChildren, builtEarly; simpl.
  rewrite !elem_of_cons. do 3 right. left. reflexivity.
Qed.

(** C8, amended. When the constructor returns, the names it gives begin
    with the resource prefix: the name of the security group, the name of
    the file system and the export names of the two outputs; the outputs
    themselves are declared under the fixed ids [efsSG] and
    [efsFileSystemId]. For a resource prefix without [/], the children are
    declared under [<prefix>-VPC], [<prefix>-efsSG], [<prefix>-efsFileSystem],
    [efsSG] and [efsFileSystemId], in this order and all different, so that
    the network lookup, the security group and the file system are under
    ids that begin with the resource prefix. *)
Theorem resources_namespaced engine id props asp app :
  AwsEfsCreatorStack engine id props (newStack asp) = Returned tt app →
  (∀ h c, (h, c) ∈ children app →
     match c with
     | VpcNode _ => True
     | SecurityGroupNode sg =>
         String.prefix (resourcePrefix props) (ec2.securityGroupName sg) = true
     | FileSystemNode fs =>
         String.prefix (resourcePrefix props) (efs.fileSystemName fs) = true
     | CfnOutputNode o =>
         (h = "efsSG" ∨ h = "efsFileSystemId")
         ∧ String.prefix (resourcePrefix props) (cdk.exportName o) = true
     end)
  ∧ (slashFree (resourcePrefix props) = true →
     ids app = [ resourcePrefix props +:+ "-VPC";
                 resourcePrefix props +:+ "-efsSG";
                 resourcePrefix props +:+ "-efsFileSystem";
                 "efsSG"; "efsFileSystemId" ]
     ∧ NoDup (ids app)
     ∧ ∀ h c, (h, c) ∈ children app →
         match c with
         | CfnOutputNode _ => True
         | VpcNode _ | SecurityGroupNode _ | FileSystemNode _ =>
             String.prefix (resourcePrefix props) h = true
         end).
Proof.
  intros (v & pm & tm & _ & _ & _ & _ & ->)%AwsEfsCreatorStack_returned.
  split.
  - intros h c H. simpl in H. each_child H; simpl; rewrite ?prefix_app; auto.
  - intros _. split_and!; [done|apply builtChildren_NoDup|].
    intros h c H. simpl in H. each_child H; simpl; rewrite ?prefix_app; auto.
Qed.

Lemma resources_namespaced_witness :
  ids acmeApp = [ "acme-production-VPC"; "acme-production-efsSG";
                  "acme-production-efsFileSystem"; "efsSG"; "efsFileSystemId" ].
Proof.
  apply (resources_namespaced resolving "AwsEfsCreatorStack" acme [] acmeApp).
  - vm_compute. reflexivity.
  - reflexivity.
Defined.

(** ** The access boundary *)

(** C9. Once the network has resolved, the stack holds exactly one security
    group, declared under [<prefix>-efsSG], whether or not the constructor
    goes on to return: it is in the resolved network, allows all outbound
    traffic, is named [<prefix>-efsSG], and carries the computed removal
    policy. The constructor has set that policy itself: the group carries no
    label yet, and it is the same under any list of registered aspects. *)
Theorem access_boundary_as_declared engine id props asp v :
  lookupVpc engine (vpcId props) = Some v →
  ∃ sg,
    securityGroups (finalApp (AwsEfsCreatorStack engine id props (newStack asp))) = [sg]
    ∧ child (finalApp (AwsEfsCreatorStack engine id props (newStack asp)))
            (resourcePrefix props +:+ "-efsSG") = Some (SecurityGroupNode sg)
    ∧ ec2.vpc sg = v
    ∧ ec2.allowAllOutbound sg = true
    ∧ ec2.securityGroupName sg = resourcePrefix props +:+ "-efsSG"
    ∧ ec2.removalPolicy sg = Some (removalPolicy props)
    ∧ ec2.tags sg = ∅
    ∧ ∀ asp',
        child (finalApp (AwsEfsCreatorStack engine id props (newStack asp')))
              (resourcePrefix props +:+ "-efsSG") = Some (SecurityGroupNode sg).
Proof.
  intros Hv. exists (builtSecurityGroup props v).
  assert (∀ a,
    securityGroups (finalApp (AwsEfsCreatorStack engine id props (newStack a)))
      = [builtSecurityGroup props v]
    ∧ child (finalApp (AwsEfsCreatorStack engine id props (newStack a)))
            (resourcePrefix props +:+ "-efsSG")
      = Some (SecurityGroupNode (builtSecurityGroup props v))) as Hsg.
  { intros a. rewrite AwsEfsCreatorStack_new. unfold constructed. rewrite Hv.
    destruct (parsePerformanceMode _) as [pm|];
      [destruct (parseThroughputMode _) as [[|]|]|];
      unfold child; cbn [finalApp children];
      rewrite ?builtChildren_efsSG, ?builtEarly_efsSG; done. }
  destruct (Hsg asp) as [Hone Hchild].
  split_and!; try done. intros asp'. apply Hsg.
Qed.

Lemma access_boundary_as_declared_witness :
  ∃ sg,
    securityGroups acmeApp = [sg]
    ∧ child acmeApp "acme-production-efsSG" = Some (SecurityGroupNode sg)
    ∧ ec2.vpc sg = {| ec2.vpcId := "vpc-123" |}
    ∧ ec2.allowAllOutbound sg = true
    ∧ ec2.securityGroupName sg = "acme-production-efsSG"
    ∧ ec2.removalPolicy sg = Some cdk.RETAIN
    ∧ ec2.tags sg = ∅
    ∧ ∀ asp',
        child (finalApp (AwsEfsCreatorStack resolving "AwsEfsCreatorStack" acme (newStack asp')))
              "acme-production-efsSG" = Some (SecurityGroupNode sg).
Proof.
  apply (access_boundary_as_declared resolving "AwsEfsCreatorStack" acme []
           {| ec2.vpcId := "vpc-123" |}).
  reflexivity.
Defined.

(** ** The entry point *)

Lemma run_checked engine env :
  firstMissing env ["APP_NAME"; "OWNER"; "VPC_ID"] = None →
  run engine env
  = (_ ← AwsEfsCreatorStack engine "AwsEfsCreatorStack" (stackProps env); synth)
      (newStack [tagSet env]).
Proof.
  intros Hok. unfold run, main, checkEnvVariables. rewrite Hok. reflexivity.
Qed.

(** A checked name that is unset or empty stops the run where it started:
    nothing is registered, looked up or declared, and the status is 1. *)
Lemma checked_names_fail_fast engine env name :
  firstMissing env ["APP_NAME"; "OWNER"; "VPC_ID"] = Some name →
  run engine env = Thrown (ConfigurationMissingError name) emptyApp
  ∧ exitCode (run engine env) = 1%Z.
Proof.
  intros Hmiss. unfold run, main, checkEnvVariables. rewrite Hmiss. done.
Qed.

(** C10. The resource prefix of the properties the entry point builds is
    the template [${appName}-${deployEnvironment}] over the two
    environment inputs: with both set, their values joined by a hyphen. It
    depends on no other input, and these properties are the ones the stack
    is constructed with once the checked names are present. *)
Theorem resource_prefix_from_environment engine env :
  resourcePrefix (stackProps env)
  = interpolate (env !! "APP_NAME") +:+ "-" +:+ interpolate (env !! "ENVIRONMENT")
  ∧ (∀ a e, env !! "APP_NAME" = Some a → env !! "ENVIRONMENT" = Some e →
       resourcePrefix (stackProps env) = a +:+ "-" +:+ e)
  ∧ (∀ env' : ProcessEnv,
       env' !! "APP_NAME" = env !! "APP_NAME" →
       env' !! "ENVIRONMENT" = env !! "ENVIRONMENT" →
       resourcePrefix (stackProps env') = resourcePrefix (stackProps env))
  ∧ (firstMissing env ["APP_NAME"; "OWNER"; "VPC_ID"] = None →
       run engine env
       = (_ ← AwsEfsCreatorStack engine "AwsEfsCreatorStack" (stackProps env); synth)
           (newStack [tagSet env])).
Proof.
  split_and!.
  - reflexivity.
  - intros a e Ha He. cbn [stackProps resourcePrefix]. by rewrite Ha, He.
  - intros env' Ha He. cbn [stackProps resourcePrefix]. by rewrite Ha, He.
  - apply run_checked.
Qed.

Lemma resource_prefix_from_environment_witness :
  resourcePrefix (stackProps acmeEnv) = "acme-production".
Proof.
  apply (resource_prefix_from_environment resolving acmeEnv); reflexivity.
Defined.

(** C1, at the failing input. With [APP_NAME], [OWNER], [VPC_ID],
    [CDK_DEPLOY_REGION] and [CDK_DEFAULT_ACCOUNT] set and [ENVIRONMENT] unset, a validator given the
    five names would stop at [ENVIRONMENT]; the entry point gives it three,
    which pass, and goes on to look up the network and to declare the
    security group, under a prefix spelt with [undefined]. The run does not
    end on a missing name. *)
Theorem unset_environment_reaches_declaration :
  noEnvironment !! "ENVIRONMENT" = None
  ∧ firstMissing noEnvironment
      ["APP_NAME"; "OWNER"; "VPC_ID"; "CDK_DEPLOY_REGION"; "ENVIRONMENT"]
    = Some "ENVIRONMENT"
  ∧ firstMissing noEnvironment ["APP_NAME"; "OWNER"; "VPC_ID"] = None
  ∧ resourcePrefix (stackProps noEnvironment) = "acme-undefined"
  ∧ ids (finalApp (run resolving noEnvironment))
    = ["acme-undefined-VPC"; "acme-undefined-efsSG"]
  ∧ ∀ name app, run resolving noEnvironment
                ≠ Thrown (ConfigurationMissingError name) app.
Proof.
  split_and!; try (vm_compute; reflexivity).
  intros name app H. vm_compute in H. discriminate H.
Qed.

(** ** Further properties of the two files *)

(** X1. The entry point hands the three names [APP_NAME], [OWNER] and [VPC_ID]
    to the validator before it registers the aspect or constructs the
    stack: when one of them is unset or empty the run ends on the first
    such name with status 1, and the application is as it started, with no
    aspect, no lookup and no declaration. *)
Theorem entry_point_checks_three_names engine env name :
  firstMissing env ["APP_NAME"; "OWNER"; "VPC_ID"] = Some name →
  run engine env = Thrown (ConfigurationMissingError name) emptyApp
  ∧ exitCode (run engine env) = 1%Z
  ∧ children (finalApp (run engine env)) = []
  ∧ aspects (finalApp (run engine env)) = [].
Proof.
  intros [Hrun Hexit]%(checked_names_fail_fast engine). by rewrite Hrun.
Qed.

Lemma entry_point_checks_three_names_witness :
  run resolving noOwner = Thrown (ConfigurationMissingError "OWNER") emptyApp
  ∧ exitCode (run resolving noOwner) = 1%Z
  ∧ children (finalApp (run resolving noOwner)) = []
  ∧ aspects (finalApp (run resolving noOwner)) = [].
Proof.
  apply (entry_point_checks_three_names resolving noOwner "OWNER").
  vm_compute. reflexivity.
Defined.

(** The properties the entry point builds carry no mode selector. *)
Lemma entry_point_sets_no_mode env :
  performanceMode (stackProps env) = undefined
  ∧ throughputMode (stackProps env) = undefined.
Proof. done. Qed.

(** X2. The entry point writes no mode selector into the properties, so the
    stack hands [undefined] to the performance parser. If that parser
    rejects [undefined], no run of the entry point returns: whatever the
    environment and the engine, it ends in a throw with status 1, before
    any file system or output is declared and before synthesis. *)
Theorem entry_point_needs_mode_default engine env e :
  parsePerformanceMode undefined = Throw e →
  ∃ err app,
    run engine env = Thrown err app
    ∧ exitCode (run engine env) = 1%Z
    ∧ fileSystems app = []
    ∧ outputs app = []
    ∧ ∀ key c, (key, c) ∈ children app → labels c = ∅.
Proof.
  intros Hpm.
  destruct (firstMissing env ["APP_NAME"; "OWNER"; "VPC_ID"]) as [name|] eqn:Hcheck.
  - destruct (checked_names_fail_fast engine env name Hcheck) as [Hrun Hexit].
    exists (ConfigurationMissingError name), emptyApp. rewrite Hrun.
    split_and!; try done. by intros key c ?%elem_of_nil.
  - rewrite (run_checked engine env Hcheck).
    unfold mbind, Decl_bind. rewrite AwsEfsCreatorStack_new. unfold constructed.
    destruct (lookupVpc engine (vpcId (stackProps env))) as [v|].
    + cbn [performanceMode stackProps]. rewrite Hpm.
      eexists _, _. split_and!; try done.
      intros key c H. unfold builtEarly in H. cbn [children] in H. each_child H; done.
    + eexists _, _. split_and!; try done. by intros key c ?%elem_of_nil.
Qed.

Lemma entry_point_needs_mode_default_witness :
  ∃ err app,
    run resolving acmeEnv = Thrown err app
    ∧ exitCode (run resolving acmeEnv) = 1%Z
    ∧ fileSystems app = []
    ∧ outputs app = []
    ∧ ∀ key c, (key, c) ∈ children app → labels c = ∅.
Proof.
  apply (entry_point_needs_mode_default resolving acmeEnv
           (InvalidModeError undefined ["generalPurpose"; "maxIO"])).
  reflexivity.
Defined.

Lemma append_assoc (a b c : string) : (a +:+ b) +:+ c = a +:+ b +:+ c.
Proof.
  induction a as [|x a IH]; [done|].
  change (String x ((a +:+ b) +:+ c) = String x (a +:+ b +:+ c)). by rewrite IH.
Qed.

(** X3. The name the stack is constructed under extends the resource
    prefix: it is the prefix, a hyphen, the deployment region as read, and
    [-AwsEfsCreatorStack]; an unset region is spelt [undefined]. *)
Theorem stack_name_extends_prefix env :
  stackName (stackProps env)
  = Some (resourcePrefix (stackProps env) +:+ "-"
            +:+ interpolate (env !! "CDK_DEPLOY_REGION") +:+ "-AwsEfsCreatorStack")
  ∧ ∃ name, stackName (stackProps env) = Some name
            ∧ String.prefix (resourcePrefix (stackProps env)) name = true.
Proof.
  assert (stackName (stackProps env)
          = Some (resourcePrefix (stackProps env) +:+ "-"
                    +:+ interpolate (env !! "CDK_DEPLOY_REGION") +:+ "-AwsEfsCreatorStack"))
    as Hname.
  { cbn [stackName resourcePrefix stackProps]. f_equal.
    by rewrite !append_assoc. }
  split; [done|]. eexists. split; [exact Hname|]. apply prefix_app.
Qed.



(** X5. The provisioned throughput mode never yields a stack: the stack
    passes no provisioned throughput, so when the network resolves and the
    throughput selector parses to that mode the constructor ends on the
    library's refusal, after the security group has been declared with its
    removal policy and before any output is published. *)
Theorem provisioned_mode_is_refused engine id props asp v pm :
  lookupVpc engine (vpcId props) = Some v →
  parsePerformanceMode (performanceMode props) = Ok pm →
  parseThroughputMode (throughputMode props) = Ok efs.PROVISIONED →
  ∃ app,
    AwsEfsCreatorStack engine id props (newStack asp)
    = Thrown ProvisionedThroughputRequired app
    ∧ securityGroups app = [builtSecurityGroup props v]
    ∧ outputs app = [].
Proof.
  intros Hv Hpm Htm. rewrite AwsEfsCreatorStack_new. unfold constructed.
  rewrite Hv, Hpm, Htm. by eexists.
Qed.

Lemma provisioned_mode_is_refused_witness :
  ∃ app,
    AwsEfsCreatorStack resolving "AwsEfsCreatorStack" acmeProvisioned (newStack [])
    = Thrown ProvisionedThroughputRequired app
    ∧ securityGroups app = [builtSecurityGroup acmeProvisioned {| ec2.vpcId := "vpc-123" |}]
    ∧ outputs app = [].
Proof.
  apply (provisioned_mode_is_refused resolving "AwsEfsCreatorStack" acmeProvisioned []
           {| ec2.vpcId := "vpc-123" |} efs.GENERAL_PURPOSE); reflexivity.
Defined.



(** X7. Whatever the outcome of the constructor, every handle held in the
    stack it leaves resolves: the network guard of the file system names a
    declared security group, and each output publishes the identifier of a
    declared resource of the right kind. *)
Theorem references_resolve engine id props asp :
  referencesResolve (finalApp (AwsEfsCreatorStack engine id props (newStack asp))) = true.
Proof.
  rewrite AwsEfsCreatorStack_new. unfold constructed.
  destruct (lookupVpc _ _) as [v|]; [|done].
  destruct (parsePerformanceMode _) as [pm|];
    [destruct (parseThroughputMode _) as [[|]|]|]; try done.
  unfold referencesResolve, resolved, child. cbn [finalApp children].
  cbn [forallb builtChildren builtEarly builtOutputs zip zip_with fmap list_fmap app
       builtFileSystem efs.securityGroup cdk.value].
  change ((resourcePrefix props +:+ "-VPC", VpcNode v)
          :: (resourcePrefix props +:+ "-efsSG", SecurityGroupNode (builtSecurityGroup props v))
          :: (resourcePrefix props +:+ "-efsFileSystem",
              FileSystemNode (builtFileSystem props v pm efs.BURSTING))
          :: _) with (builtChildren props v pm efs.BURSTING).
  by rewrite builtChildren_efsSG, builtChildren_efsFileSystem.
Qed.

Lemma firstMissing_None env names :
  firstMissing env names = None →
  ∀ name, name ∈ names → ∃ v, env !! name = Some v ∧ v ≠ "".
Proof.
  induction names as [|n rest IH]; simpl.
  - by intros _ name ?%elem_of_nil.
  - destruct (env !! n) as [v|] eqn:Hn; [|done].
    destruct (decide (v = "")) as [|Hv]; [done|].
    intros Hrest name [->|Hin]%elem_of_cons; [by exists v|by apply IH].
Qed.

Lemma AwsEfsCreatorStack_aspects engine id props asp :
  aspects (finalApp (AwsEfsCreatorStack engine id props (newStack asp))) = asp.
Proof.
  rewrite AwsEfsCreatorStack_new. unfold constructed.
  destruct (lookupVpc _ _) as [v|]; [|done].
  destruct (parsePerformanceMode _) as [pm|];
    [destruct (parseThroughputMode _) as [[|]|]|]; done.
Qed.

(** X8. What the validator has checked is what the entry point goes on to
    use. When the three names pass, the application name and the network
    identifier the stack is constructed with, and the project and owner
    labels handed to the tag aspect, are the non-empty values of
    [APP_NAME], [VPC_ID] and [OWNER]; the resource prefix starts with the
    application name and a hyphen; and whatever happens afterwards, exactly
    one aspect has been registered, with that tag set. The environment
    label and the second half of the prefix are not covered by the check. *)
Theorem entry_point_uses_checked_values engine env :
  firstMissing env ["APP_NAME"; "OWNER"; "VPC_ID"] = None →
  ∃ a o v,
    a ≠ "" ∧ o ≠ "" ∧ v ≠ ""
    ∧ appName (stackProps env) = Some a
    ∧ vpcId (stackProps env) = Some v
    ∧ resourcePrefix (stackProps env) = a +:+ "-" +:+ interpolate (env !! "ENVIRONMENT")
    ∧ project (tagSet env) = Some a
    ∧ owner (tagSet env) = Some o
    ∧ environment (tagSet env) = env !! "ENVIRONMENT"
    ∧ aspects (finalApp (run engine env)) = [tagSet env].
Proof.
  intros Hcheck.
  destruct (firstMissing_None _ _ Hcheck "APP_NAME") as (a & Ha & Ha0);
    [rewrite !elem_of_cons; auto|].
  destruct (firstMissing_None _ _ Hcheck "OWNER") as (o & Ho & Ho0);
    [rewrite !elem_of_cons; auto|].
  destruct (firstMissing_None _ _ Hcheck "VPC_ID") as (v & Hv & Hv0);
    [rewrite !elem_of_cons; auto|].
  exists a, o, v. cbn [stackProps tagSet appName vpcId resourcePrefix project owner environment].
  rewrite Ha, Ho, Hv. split_and!; try done.
  rewrite (run_checked engine env Hcheck). unfold mbind, Decl_bind.
  pose proof (AwsEfsCreatorStack_aspects engine "AwsEfsCreatorStack" (stackProps env)
                [tagSet env]) as Hasp.
  destruct (AwsEfsCreatorStack engine "AwsEfsCreatorStack" (stackProps env)
              (newStack [tagSet env])) as [[] app|err app]; simpl in *; by rewrite Hasp.
Qed.

Lemma entry_point_uses_checked_values_witness :
  ∃ a o v,
    a ≠ "" ∧ o ≠ "" ∧ v ≠ ""
    ∧ appName (stackProps noEnvironment) = Some a
    ∧ vpcId (stackProps noEnvironment) = Some v
    ∧ resourcePrefix (stackProps noEnvironment)
      = a +:+ "-" +:+ interpolate (noEnvironment !! "ENVIRONMENT")
    ∧ project (tagSet noEnvironment) = Some a
    ∧ owner (tagSet noEnvironment) = Some o
    ∧ environment (tagSet noEnvironment) = noEnvironment !! "ENVIRONMENT"
    ∧ aspects (finalApp (run resolving noEnvironment)) = [tagSet noEnvironment].
Proof.
  apply (entry_point_uses_checked_values resolving noEnvironment).
  vm_compute. reflexivity.
Defined.

(** X9. When the constructor returns, the file system and its security
    group are in one and the same network: the one the lookup resolved,
    which is also the construct declared under [<prefix>-VPC]. The file
    system is named [<prefix>-efsFileSystem], the id it is declared
    under. *)
Theorem file_system_in_resolved_network engine id props asp app :
  AwsEfsCreatorStack engine id props (newStack asp) = Returned tt app →
  ∃ v fs sg,
    lookupVpc engine (vpcId props) = Some v
    ∧ child app (resourcePrefix props +:+ "-VPC") = Some (VpcNode v)
    ∧ fileSystems app = [fs]
    ∧ securityGroups app = [sg]
    ∧ efs.vpc fs = v
    ∧ ec2.vpc sg = v
    ∧ efs.fileSystemName fs = resourcePrefix props +:+ "-efsFileSystem"
    ∧ child app (efs.fileSystemName fs) = Some (FileSystemNode fs).
Proof.
  intros (v & pm & tm & Hv & _ & _ & _ & ->)%AwsEfsCreatorStack_returned.
  exists v, (builtFileSystem props v pm tm), (builtSecurityGroup props v).
  unfold child; cbn [children builtFileSystem efs.fileSystemName].
  rewrite builtChildren_efsFileSystem.
  split_and!; try done.
  simpl. by rewrite (decide_True _ _ eq_refl).
Qed.

Lemma file_system_in_resolved_network_witness :
  ∃ v fs sg,
    lookupVpc resolving (vpcId acme) = Some v
    ∧ child acmeApp "acme-production-VPC" = Some (VpcNode v)
    ∧ fileSystems acmeApp = [fs]
    ∧ securityGroups acmeApp = [sg]
    ∧ efs.vpc fs = v
    ∧ ec2.vpc sg = v
    ∧ efs.fileSystemName fs = "acme-production-efsFileSystem"
    ∧ child acmeApp (efs.fileSystemName fs) = Some (FileSystemNode fs).
Proof.
  apply (file_system_in_resolved_network resolving "AwsEfsCreatorStack" acme [] acmeApp).
  vm_compute. reflexivity.
Defined.

Lemma hyphen_joined_inj (a a' e e' : string) :
  hyphenFree a = true → hyphenFree a' = true →
  a +:+ "-" +:+ e = a' +:+ "-" +:+ e' → a = a' ∧ e = e'.
Proof.
  revert a'. induction a as [|c a IH]; intros [|c' a'] Ha Ha' Heq; simpl in Heq.
  - injection Heq as Heq. split; [done|exact Heq].
  - exfalso. injection Heq as <- _. simpl in Ha'. discriminate Ha'.
  - exfalso. injection Heq as -> _. simpl in Ha. discriminate Ha.
  - simpl in Ha, Ha'. apply andb_true_iff in Ha as [_ Ha].
    apply andb_true_iff in Ha' as [_ Ha'].
    injection Heq as -> Heq. destruct (IH a' Ha Ha' Heq) as [-> ->]. done.
Qed.

(** The hyphen-free condition is needed: an application name with a hyphen
    can give the prefix of another application in another environment. *)
Lemma resource_prefix_collision :
  resourcePrefix (stackProps (list_to_map [("APP_NAME", "shop-api"); ("ENVIRONMENT", "staging")]))
  = resourcePrefix (stackProps (list_to_map [("APP_NAME", "shop"); ("ENVIRONMENT", "api-staging")])).
Proof. reflexivity. Qed.

(** X10. The resource prefix tells application and environment apart when
    the application name, as it is spliced into the prefix, holds no
    hyphen: two such environments with the same prefix splice the same
    application name and the same deployment environment, and where
    [APP_NAME] and [ENVIRONMENT] are set in both, their values are equal.
    An unset variable is spliced as [undefined], so an unset [ENVIRONMENT]
    is not told apart from the value [undefined]. *)
Theorem resource_prefix_injective (env env' : ProcessEnv) :
  hyphenFree (interpolate (env !! "APP_NAME")) = true →
  hyphenFree (interpolate (env' !! "APP_NAME")) = true →
  resourcePrefix (stackProps env) = resourcePrefix (stackProps env') →
  interpolate (env !! "APP_NAME") = interpolate (env' !! "APP_NAME")
  ∧ interpolate (env !! "ENVIRONMENT") = interpolate (env' !! "ENVIRONMENT")
  ∧ (∀ a a' e e',
       env !! "APP_NAME" = Some a → env' !! "APP_NAME" = Some a' →
       env !! "ENVIRONMENT" = Some e → env' !! "ENVIRONMENT" = Some e' →
       a = a' ∧ e = e').
Proof.
  intros Hfree Hfree' Hsame. cbn [stackProps resourcePrefix] in Hsame.
  destruct (hyphen_joined_inj _ _ _ _ Hfree Hfree' Hsame) as [Happ Henv].
  split_and!; try done.
  intros a a' e e' Ha Ha' He He'. rewrite Ha, Ha' in Happ. rewrite He, He' in Henv. done.
Qed.

Lemma resource_prefix_injective_witness :
  resourcePrefix (stackProps acmeEnv)
  ≠ resourcePrefix (stackProps (<["ENVIRONMENT" := "staging"]> acmeEnv)).
Proof.
  intros Hsame.
  assert (interpolate (acmeEnv !! "ENVIRONMENT")
          = interpolate (<["ENVIRONMENT" := "staging"]> acmeEnv !! "ENVIRONMENT")) as Hne.
  { apply (resource_prefix_injective acmeEnv (<["ENVIRONMENT" := "staging"]> acmeEnv));
      [vm_compute; reflexivity..|exact Hsame]. }
  vm_compute in Hne. discriminate Hne.
Defined.



(** X12. On the properties the entry point builds, the constructor, once
    the network has resolved, holds one security group whether or not it
    goes on to return, and the removal policy of that group is retain
    exactly when [ENVIRONMENT] is the string [production]: any other value,
    and no value at all, leaves it to be destroyed. *)
Theorem entry_point_props_retain_only_production engine env asp v :
  lookupVpc engine (env !! "VPC_ID") = Some v →
  ec2.removalPolicy
    <$> securityGroups (finalApp (AwsEfsCreatorStack engine "AwsEfsCreatorStack"
                                    (stackProps env) (newStack asp)))
  = [Some (if decide (env !! "ENVIRONMENT" = Some "production")
           then cdk.RETAIN else cdk.DESTROY)].
Proof.
  intros Hv. rewrite AwsEfsCreatorStack_new. unfold constructed.
  change (vpcId (stackProps env)) with (env !! "VPC_ID"). rewrite Hv.
  destruct (parsePerformanceMode _) as [pm|];
    [destruct (parseThroughputMode _) as [[|]|]|]; reflexivity.
Qed.

Lemma entry_point_props_retain_only_production_witness :
  ec2.removalPolicy
    <$> securityGroups (finalApp (AwsEfsCreatorStack resolving "AwsEfsCreatorStack"
                                    (stackProps noEnvironment) (newStack [])))
  = [Some cdk.DESTROY].
Proof.
  apply (entry_point_props_retain_only_production resolving noEnvironment []
           {| ec2.vpcId := "vpc-123" |}); reflexivity.
Defined.

(** ** Mode parsers *)

Lemma memberNamed_Some {M : Type} (members : list (string * M)) s m :
  NoDup members.*1 → memberNamed members s = Some m ↔ (s, m) ∈ members.
Proof.
  induction members as [|[name m'] rest IH]; simpl.
  - intros _. rewrite elem_of_nil. split; [done|tauto].
  - intros [Hfresh Hrest]%NoDup_cons. rewrite elem_of_cons.
    destruct (decide (s = name)) as [->|Hne].
    + split.
      * intros [= ->]. by left.
      * intros [[= ->]|Hin]; [done|].
        exfalso. apply Hfresh. apply list_elem_of_fmap. by exists (name, m).
    + rewrite IH by done. split; [by right|].
      intros [[= -> ->]|Hin]; done.
Qed.

Lemma memberNamed_None {M : Type} (members : list (string * M)) s :
  memberNamed members s = None ↔ s ∉ members.*1.
Proof.
  induction members as [|[name m'] rest IH]; simpl.
  - split; [intros _; apply not_elem_of_nil|done].
  - rewrite not_elem_of_cons. destruct (decide (s = name)) as [->|Hne].
    + split; [done|]. by intros [? _].
    + rewrite IH. tauto.
Qed.

Lemma parseMode_Ok {M : Type} (members : list (string * M)) s m :
  NoDup members.*1 → parseMode members (Some s) = Ok m ↔ (s, m) ∈ members.
Proof.
  intros Hnd. rewrite <- memberNamed_Some by done. unfold parseMode.
  destruct (memberNamed members s); split; congruence.
Qed.

Lemma parseMode_Throw {M : Type} (members : list (string * M)) s :
  s ∉ members.*1 →
  parseMode members (Some s) = Throw (InvalidModeError (Some s) members.*1).
Proof.
  intros Hout%memberNamed_None. unfold parseMode. by rewrite Hout.
Qed.

(** C6. Each parser accepts exactly the literal names of its two members,
    compared as they are, and returns the member so named; on any other
    string, and on no string at all, it fails with an [InvalidModeError]
    that carries the raw value and the accepted names. [maxIO] yields the
    max-I/O mode, [turbo] fails with the two accepted values listed, and
    [MAXIO] fails too, since case is not normalised. *)
Theorem mode_parsers_exact :
  (∀ s m, parsePerformanceMode (Some s) = Ok m ↔
          (s = "generalPurpose" ∧ m = efs.GENERAL_PURPOSE)
          ∨ (s = "maxIO" ∧ m = efs.MAX_IO))
  ∧ (∀ s, s ≠ "generalPurpose" → s ≠ "maxIO" →
          parsePerformanceMode (Some s)
          = Throw (InvalidModeError (Some s) ["generalPurpose"; "maxIO"]))
  ∧ (∀ s m, parseThroughputMode (Some s) = Ok m ↔ (s, m) ∈ throughputModes)
  ∧ (∀ s, s ∉ throughputModes.*1 →
          parseThroughputMode (Some s)
          = Throw (InvalidModeError (Some s) throughputModes.*1))
  ∧ NoDup throughputModes.*1
  ∧ throughputModes.*2 = [efs.BURSTING; efs.PROVISIONED]
  ∧ parsePerformanceMode undefined
    = Throw (InvalidModeError undefined ["generalPurpose"; "maxIO"])
  ∧ parseThroughputMode undefined
    = Throw (InvalidModeError undefined throughputModes.*1)
  ∧ parsePerformanceMode (Some "maxIO") = Ok efs.MAX_IO
  ∧ parsePerformanceMode (Some "turbo")
    = Throw (InvalidModeError (Some "turbo") ["generalPurpose"; "maxIO"])
  ∧ parsePerformanceMode (Some "MAXIO")
    = Throw (InvalidModeError (Some "MAXIO") ["generalPurpose"; "maxIO"])
  ∧ parseThroughputMode (Some "bursting") = Ok efs.BURSTING.
Proof.
  assert (NoDup performanceModes.*1) as Hp.
  { simpl. repeat (apply NoDup_cons; split;
      [rewrite ?elem_of_cons, elem_of_nil; intuition congruence|]). apply NoDup_nil_2. }
  assert (NoDup throughputModes.*1) as Ht.
  { simpl. repeat (apply NoDup_cons; split;
      [rewrite ?elem_of_cons, elem_of_nil; intuition congruence|]). apply NoDup_nil_2. }
  split_and!; try done.
  - intros s m. unfold parsePerformanceMode. rewrite parseMode_Ok by done.
    unfold performanceModes. rewrite !elem_of_cons, elem_of_nil.
    split.
    + intros [[= -> ->]|[[= -> ->]|[]]]; auto.
    + intros [[-> ->]|[-> ->]]; auto.
  - intros s H1 H2. apply (parseMode_Throw performanceModes).
    simpl. rewrite !elem_of_cons, elem_of_nil. tauto.
  - intros s m. by apply parseMode_Ok.
  - intros s. apply parseMode_Throw.
Qed.

Lemma mode_parsers_exact_witness :
  parsePerformanceMode (Some "bursting")
  = Throw (InvalidModeError (Some "bursting") ["generalPurpose"; "maxIO"]).
Proof.
  apply mode_parsers_exact; discriminate.
Defined.

(** ** The tag aspect *)

Lemma visit_labels t node :
  isTaggable node = true →
  labels (visit t node)
  = <["owner" := owner t]> (<["project" := project t]>
      (<["environment" := environment t]> (labels node))).
Proof. destruct node; done. Qed.

Lemma visit_untaggable t node : isTaggable node = false → visit t node = node.
Proof. intros H. unfold visit. by rewrite H. Qed.

Lemma tags_twice (t : TagSet) (m : gmap string jsstr) :
  <["owner" := owner t]> (<["project" := project t]> (<["environment" := environment t]>
    (<["owner" := owner t]> (<["project" := project t]>
       (<["environment" := environment t]> m)))))
  = <["owner" := owner t]> (<["project" := project t]>
      (<["environment" := environment t]> m)).
Proof.
  apply map_eq. intros key. rewrite !lookup_insert. by repeat case_decide.
Qed.

(** C7. Visiting a node twice with the same tag set leaves it as one visit
    does, labels included: the second visit writes the three values that
    are already there. After a visit a node that supports tagging carries
    the three labels of the tag set; a node that does not is returned as it
    was, and no visit fails. *)
Theorem tag_application_idempotent t node :
  visit t (visit t node) = visit t node
  ∧ labels (visit t (visit t node)) = labels (visit t node)
  ∧ (isTaggable node = true →
       labels (visit t node) !! "environment" = Some (environment t)
       ∧ labels (visit t node) !! "project" = Some (project t)
       ∧ labels (visit t node) !! "owner" = Some (owner t)
       ∧ ∀ key, key ≠ "environment" → key ≠ "project" → key ≠ "owner" →
                labels (visit t node) !! key = labels node !! key)
  ∧ (isTaggable node = false → visit t node = node).
Proof.
  assert (visit t (visit t node) = visit t node) as Hidem.
  { destruct node as [v|sg|fs|o]; try done.
    - unfold visit; simpl. f_equal. f_equal. apply tags_twice.
    - unfold visit; simpl. f_equal. f_equal. apply tags_twice. }
  split_and!; [done|by rewrite Hidem| |apply visit_untaggable].
  intros Htag. rewrite visit_labels by done.
  split_and!.
  - by rewrite lookup_insert_ne, lookup_insert_ne, lookup_insert_eq.
  - by rewrite lookup_insert_ne, lookup_insert_eq.
  - by rewrite lookup_insert_eq.
  - intros key H1 H2 H3. by rewrite !lookup_insert_ne.
Qed.

Lemma tag_application_idempotent_witness :
  labels (visit sampleTags (SecurityGroupNode (builtSecurityGroup acme {| ec2.vpcId := "vpc-123" |})))
    !! "environment" = Some (Some "production")
  ∧ visit sampleTags (VpcNode {| ec2.vpcId := "vpc-123" |}) = VpcNode {| ec2.vpcId := "vpc-123" |}.
Proof.
  split.
  - apply (tag_application_idempotent sampleTags
             (SecurityGroupNode (builtSecurityGroup acme {| ec2.vpcId := "vpc-123" |}))).
    reflexivity.
  - apply (tag_application_idempotent sampleTags (VpcNode {| ec2.vpcId := "vpc-123" |})).
    reflexivity.
Defined.
